(** * offheap: memory regions obtained from the kernel through mmap

    A shallow embedding of [malloc.go] (package [offheap]) and the
    properties of its region lifecycle: [Malloc], [TruncateTo], [Free],
    [BlockUntilSync], [BackgroundSync] and [Growmap].

    The package is written against two outside services, the [os] package
    and [github.com/edsrzf/mmap-go].  They are kept abstract here, as a
    class [Platform] of calls on an opaque [world]; the Go functions are
    translated over that class, statement by statement, in a state and
    panic monad whose state is the Go heap of [MmapMalloc] structs together
    with the world. *)

From Stdlib Require Import ZArith Lia.
From stdpp Require Import base option gmap strings.

Open Scope string_scope.
Open Scope Z_scope.

(** ** Go values *)

(** A non-nil [*os.File] is the identity of a file object; the Go type
    [*os.File] itself is [option file], [None] being [nil]. *)
Definition file := positive.

(** A byte slice ([[]byte], [mmap.MMap]) is kept as its header: where the
    bytes start and how many there are.  The bytes themselves live in the
    world. *)
Record slice := Slice { sl_base : Z; sl_len : Z }.

Definition nil_slice : slice := Slice 0 0.

(** [len(s)] *)
Definition len (s : slice) : Z := sl_len s.

(** Go [error] values met in this package. *)
Inductive error :=
| ErrInvalid                (* os.ErrInvalid: a method called on a nil *os.File *)
| Errorf (msg : string)     (* made by fmt.Errorf in this package *)
| Foreign (code : Z).       (* reported by the operating system or mmap-go *)

(** What [panic] is called with, and the run-time panic of a nil pointer. *)
Inductive panic_value :=
| PanicString (msg : string)
| PanicError (e : error)
| NilDereference.

Inductive outcome (A : Type) :=
| Returned (a : A)
| Panicked (v : panic_value).
Arguments Returned {A} a.
Arguments Panicked {A} v.

(** The struct of malloc.go. *)
Record MmapMalloc := mkMmapMalloc {
  Path : string;
  File : option file;
  Fd : Z;
  FileBytesLen : Z;
  BytesAlloc : Z;
  MMap : slice;
  Mem : slice
}.

(** [MmapMalloc{}]: every field at its zero value. *)
Definition zero_MmapMalloc : MmapMalloc :=
  mkMmapMalloc "" None 0 0 0 nil_slice nil_slice.

Definition set_Path (v : string) (m : MmapMalloc) : MmapMalloc :=
  mkMmapMalloc v (File m) (Fd m) (FileBytesLen m) (BytesAlloc m) (MMap m) (Mem m).
Definition set_File (v : option file) (m : MmapMalloc) : MmapMalloc :=
  mkMmapMalloc (Path m) v (Fd m) (FileBytesLen m) (BytesAlloc m) (MMap m) (Mem m).
Definition set_Fd (v : Z) (m : MmapMalloc) : MmapMalloc :=
  mkMmapMalloc (Path m) (File m) v (FileBytesLen m) (BytesAlloc m) (MMap m) (Mem m).
Definition set_FileBytesLen (v : Z) (m : MmapMalloc) : MmapMalloc :=
  mkMmapMalloc (Path m) (File m) (Fd m) v (BytesAlloc m) (MMap m) (Mem m).
Definition set_BytesAlloc (v : Z) (m : MmapMalloc) : MmapMalloc :=
  mkMmapMalloc (Path m) (File m) (Fd m) (FileBytesLen m) v (MMap m) (Mem m).
Definition set_MMap (v : slice) (m : MmapMalloc) : MmapMalloc :=
  mkMmapMalloc (Path m) (File m) (Fd m) (FileBytesLen m) (BytesAlloc m) v (Mem m).
Definition set_Mem (v : slice) (m : MmapMalloc) : MmapMalloc :=
  mkMmapMalloc (Path m) (File m) (Fd m) (FileBytesLen m) (BytesAlloc m) (MMap m) v.

(** [int(x)] for an [int64] x.  [int] is taken 64 bits wide, as on the
    platforms mmap is used on, so the conversion keeps the value. *)
Definition int (x : Z) : Z := x.

(** [path == ""] *)
Definition is_empty (s : string) : bool :=
  match s with
  | EmptyString => true
  | String _ _ => false
  end.

(** ** The platform *)

(** The calls malloc.go makes outside itself.  Every call that can change
    the outside takes the world and gives the next one back.  [file_len]
    and [opened_on] are observations used to state what the calls promise:
    the length of the regular file at a path, and the path a file object
    is open on ([None] once it is closed). *)
Class Platform := {
  world : Type;

  (* constants of package mmap *)
  ANON : Z;
  RDWR : Z;

  file_len : world -> string -> option Z;
  opened_on : world -> file -> option string;

  (* helpers of package offheap that are not in malloc.go *)
  dirExists : string -> world -> bool;
  fileExists : string -> world -> bool;

  (* package os *)
  os_Create : string -> world -> (error + file) * world;
  os_OpenFile_RDWR : string -> world -> (error + file) * world;
  sys_fd : file -> world -> Z;
  sys_fstat : file -> world -> error + Z;
  sys_ftruncate : file -> Z -> world -> option error * world;
  sys_close : file -> world -> option error * world;

  (* package mmap *)
  mmap_MapRegion :
    option file -> Z -> Z -> Z -> Z -> world -> (error + slice) * world;
  mmap_Map : option file -> Z -> Z -> world -> (error + slice) * world;
  mmap_unmap : slice -> world -> option error * world;
  mmap_flush : slice -> world -> option error * world;

  (* what the calls promise *)

  (** A path that holds a regular file is a file and not a directory. *)
  regular_exists : forall w p M,
    file_len w p = Some M -> dirExists p w = false /\ fileExists p w = true;

  (** Opening changes no file's length and yields an object open on the path. *)
  open_ok : forall w p f w',
    os_OpenFile_RDWR p w = (inr f, w') ->
    opened_on w' f = Some p /\ (forall q, file_len w' q = file_len w q);

  (** An open file object has a descriptor, which is not negative. *)
  fd_open : forall w f p, opened_on w f = Some p -> 0 <= sys_fd f w;

  (** Stat reports the length of the file the object is open on. *)
  fstat_ok : forall w f p sz,
    opened_on w f = Some p -> sys_fstat f w = inr sz -> file_len w p = Some sz;

  (** An anonymous mapping has the length asked for. *)
  map_anon_len : forall w n w' b,
    mmap_MapRegion None n RDWR ANON 0 w = (inr b, w') -> len b = n;

  (** Mapping a whole file gives as many bytes as the file has and changes
      no file's length. *)
  map_file_ok : forall w f p M w' b,
    opened_on w f = Some p -> file_len w p = Some M ->
    mmap_Map (Some f) RDWR 0 w = (inr b, w') ->
    len b = M /\ (forall q, file_len w' q = file_len w q);

  (** Closing leaves the object closed, whatever Close reports. *)
  close_closes : forall w f r w',
    sys_close f w = (r, w') -> opened_on w' f = None;

  (** Unmapping opens no file. *)
  unmap_keeps_closed : forall w b r w' f,
    mmap_unmap b w = (r, w') -> opened_on w f = None -> opened_on w' f = None;

  (** A closed file object cannot be truncated. *)
  ftruncate_closed : forall w f n,
    opened_on w f = None -> exists e, fst (sys_ftruncate f n w) = Some e;

  (** There is nothing to unmap behind the nil slice. *)
  unmap_nil : forall w, exists e, fst (mmap_unmap nil_slice w) = Some e
}.

(** What Create and Truncate promise besides: Create yields an object open
    on the path, and a Truncate that succeeds leaves the file at the length
    asked for, with the object still open on it. *)
Class FilePlatform (P : Platform) := {
  create_opens : forall w p f w',
    os_Create p w = (inr f, w') -> opened_on w' f = Some p;
  truncate_ok : forall w f p n w',
    opened_on w f = Some p -> sys_ftruncate f n w = (None, w') ->
    opened_on w' f = Some p /\ file_len w' p = Some n
}.

(** What package mmap refuses: a mapping of no bytes, be it anonymous or
    of an empty file. *)
Class MapRefusals (P : Platform) := {
  map_anon_positive : forall w n w' b,
    mmap_MapRegion None n RDWR ANON 0 w = (inr b, w') -> 0 < n;
  map_file_nonempty : forall w f p M w' b,
    opened_on w f = Some p -> file_len w p = Some M ->
    mmap_Map (Some f) RDWR 0 w = (inr b, w') -> 0 < M
}.

(** ** Methods of [*os.File], with their nil receivers *)

Section Program.
Context {P : Platform}.

(** [f.Fd()]: all ones, that is -1 as an [int], on a nil receiver. *)
Definition File_Fd (f : option file) (w : world) : Z :=
  match f with
  | Some fh => sys_fd fh w
  | None => -1
  end.

(** [f.Stat()] then [fi.Size()] *)
Definition File_Stat_Size (f : option file) (w : world) : error + Z :=
  match f with
  | Some fh => sys_fstat fh w
  | None => inl ErrInvalid
  end.

(** [f.Truncate(size)]: os.ErrInvalid on a nil receiver. *)
Definition File_Truncate (f : option file) (size : Z) (w : world)
  : option error * world :=
  match f with
  | Some fh => sys_ftruncate fh size w
  | None => (Some ErrInvalid, w)
  end.

(** [f.Close()] *)
Definition File_Close (f : option file) (w : world) : option error * world :=
  match f with
  | Some fh => sys_close fh w
  | None => (Some ErrInvalid, w)
  end.

(** ** State and panics *)

(** A [*MmapMalloc] that is not nil. *)
Definition ptr := positive.

Record state := State {
  heap : gmap ptr MmapMalloc;
  env : world
}.

Definition M (A : Type) : Type := state -> outcome A * state.

Definition ret {A} (a : A) : M A := fun s => (Returned a, s).

Definition bind {A B} (m : M A) (k : A -> M B) : M B :=
  fun s =>
    match m s with
    | (Returned a, s') => k a s'
    | (Panicked v, s') => (Panicked v, s')
    end.

Definition panic {A} (v : panic_value) : M A := fun s => (Panicked v, s).

(** A call that only looks at the world. *)
Definition ask {A} (q : world -> A) : M A :=
  fun s => (Returned (q (env s)), s).

(** A call that may change the world. *)
Definition call {A} (c : world -> A * world) : M A :=
  fun s => let '(a, w') := c (env s) in (Returned a, State (heap s) w').

(** [p.field] *)
Definition field {A} (proj : MmapMalloc -> A) (p : ptr) : M A :=
  fun s =>
    match heap s !! p with
    | Some r => (Returned (proj r), s)
    | None => (Panicked NilDereference, s)
    end.

(** [p.field = v] *)
Definition assign (upd : MmapMalloc -> MmapMalloc) (p : ptr) : M unit :=
  fun s =>
    match heap s !! p with
    | Some r => (Returned tt, State (<[p := upd r]> (heap s)) (env s))
    | None => (Panicked NilDereference, s)
    end.

(** [&v]: the struct moves to a location the heap does not use yet. *)
Definition new (v : MmapMalloc) : M ptr :=
  fun s =>
    let p := fresh (dom (heap s)) in
    (Returned p, State (<[p := v]> (heap s)) (env s)).

End Program.

Notation "x <- m ;; k" := (bind m (fun x => k))
  (at level 100, m at next level, right associativity).
Notation "m ;;; k" := (bind m (fun _ => k))
  (at level 100, right associativity).

(** ** malloc.go *)

Section Functions.
Context {P : Platform}.

Definition TruncateTo_nonfile_msg : string :=
  "cannot call TruncateTo() on a non-file backed MmapMalloc.".

(** [func (mm *MmapMalloc) TruncateTo(newSize int64)] *)
Definition TruncateTo (mm : ptr) (newSize : Z) : M unit :=
  f <- field File mm ;;
  match f with
  | None => panic (PanicString TruncateTo_nonfile_msg)
  | Some _ =>
      err <- call (File_Truncate f newSize) ;;
      match err with
      | Some e => panic (PanicError e)
      | None => ret tt
      end
  end.

(** [m.Unmap()] of package mmap, for the field [mm.MMap].  The method has
    a pointer receiver: it unmaps the bytes, sets the slice it was called
    on to nil and returns what unmapping reported. *)
Definition MMap_Unmap (mm : ptr) : M (option error) :=
  m <- field MMap mm ;;
  err <- call (mmap_unmap m) ;;
  assign (set_MMap nil_slice) mm ;;;
  ret err.

(** [m.Flush()] of package mmap, for the field [mm.MMap]. *)
Definition MMap_Flush (mm : ptr) : M (option error) :=
  m <- field MMap mm ;;
  call (mmap_flush m).

(** [func (mm *MmapMalloc) Free()] *)
Definition Free (mm : ptr) : M unit :=
  f <- field File mm ;;
  match f with
  | Some _ => call (File_Close f) ;;; ret tt
  | None => ret tt
  end ;;;
  err <- MMap_Unmap mm ;;
  match err with
  | Some e => panic (PanicError e)
  | None => ret tt
  end.

Definition Malloc_nosize_msg : string :=
  "numBytes was negative but path was also empty: don't know how much to allocate!".

(** [fmt.Sprintf] of the directory message. *)
Definition Malloc_isdir_msg (path : string) : string :=
  ("path '" +:+ path +:+
   "' already exists as a directory, so cannot be used as a memory mapped file.")%string.

(** [func Malloc(numBytes int64, path string) *MmapMalloc].  [mm] is a
    local struct until [&mm] is returned; [vprintf] only prints. *)
Definition Malloc (numBytes : Z) (path : string) : M ptr :=
  let mm := set_Path path zero_MmapMalloc in
  let flags := 0 in
  fm <-
    (if is_empty path then
       let flags := ANON in
       let mm := set_Fd (-1) mm in
       if numBytes <? 0 then panic (PanicString Malloc_nosize_msg)
       else ret (flags, mm)
     else
       isdir <- ask (dirExists (Path mm)) ;;
       if isdir then panic (PanicString (Malloc_isdir_msg (Path mm)))
       else
         isfile <- ask (fileExists (Path mm)) ;;
         mm <-
           (if negb isfile then
              r <- call (os_Create (Path mm)) ;;
              match r with
              | inl err => panic (PanicError err)
              | inr file => ret (set_File (Some file) mm)
              end
            else
              r <- call (os_OpenFile_RDWR (Path mm)) ;;
              match r with
              | inl err => panic (PanicError err)
              | inr file => ret (set_File (Some file) mm)
              end) ;;
         fd <- ask (File_Fd (File mm)) ;;
         ret (flags, set_Fd (int fd) mm)) ;;
  let '(flags, mm) := fm in
  let sz := numBytes in
  sm <-
    (if negb (is_empty path) then
       sz <-
         (if numBytes <? 0 then
            r <- ask (File_Stat_Size (File mm)) ;;
            match r with
            | inl err => panic (PanicError err)
            | inr size => ret size
            end
          else
            err <- call (File_Truncate (File mm) numBytes) ;;
            match err with
            | Some e => panic (PanicError e)
            | None => ret sz
            end) ;;
       ret (sz, set_FileBytesLen sz mm)
     else ret (sz, mm)) ;;
  let '(sz, mm) := sm in
  let mm := set_BytesAlloc sz mm in
  let prot := RDWR in
  r <-
    (if Fd mm =? -1 then call (mmap_MapRegion None (int sz) prot flags 0)
     else call (mmap_Map (File mm) prot flags)) ;;
  match r with
  | inl err => panic (PanicError err)
  | inr mmapBuffer =>
      let mm := set_MMap mmapBuffer mm in
      let mm := set_Mem mmapBuffer mm in
      new mm
  end.

(** [func (mm *MmapMalloc) BlockUntilSync()]: what Flush returns is dropped. *)
Definition BlockUntilSync (mm : ptr) : M unit :=
  MMap_Flush mm ;;; ret tt.

(** [func (mm *MmapMalloc) BackgroundSync()] *)
Definition BackgroundSync (mm : ptr) : M unit :=
  MMap_Flush mm ;;; ret tt.

Definition Growmap_nofile_msg : string :=
  "oldmap must be mapping to actual file, so we can grow it".

Definition Growmap_notlarger_msg : string :=
  "mapping in Growmap must be larger than before".

(** [a || b], the right operand evaluated only when the left is false. *)
Definition orelse (a b : M bool) : M bool :=
  x <- a ;; if x then ret true else b.

(** [func Growmap(oldmap *MmapMalloc, newSize int64)
      (newmap *MmapMalloc, err error)].  The pair returned is
    [(newmap, err)], [None] standing for nil.  The two [return]s that
    follow a [panic] in the source are never reached and are left out. *)
Definition Growmap (oldmap : ptr) (newSize : Z)
  : M (option ptr * option error) :=
  c <- orelse (p <- field Path oldmap ;; ret (is_empty p))
              (fd <- field Fd oldmap ;; ret (fd <=? 0)) ;;
  if c then ret (None, Some (Errorf Growmap_nofile_msg))
  else
    c <- orelse (a <- field BytesAlloc oldmap ;; ret (newSize <=? a))
                (l <- field FileBytesLen oldmap ;; ret (newSize <=? l)) ;;
    if c then ret (None, Some (Errorf Growmap_notlarger_msg))
    else
      newmap <- new zero_MmapMalloc ;;
      p <- field Path oldmap ;;
      assign (set_Path p) newmap ;;;
      fd <- field Fd oldmap ;;
      assign (set_Fd fd) newmap ;;;
      (* set to the size requested *)
      f <- field File newmap ;;
      err <- call (File_Truncate f newSize) ;;
      match err with
      | Some e => panic (PanicError e)
      | None =>
          assign (set_FileBytesLen newSize) newmap ;;;
          assign (set_BytesAlloc newSize) newmap ;;;
          let prot := RDWR in
          let flags := 0 in
          f <- field File newmap ;;
          r <- call (mmap_Map f prot flags) ;;
          match r with
          | inl e => panic (PanicError e)
          | inr mmapBuffer =>
              assign (set_MMap mmapBuffer) newmap ;;;
              assign (set_Mem mmapBuffer) newmap ;;;
              ret (Some newmap, None)
          end
      end.

End Functions.

(** ** A platform to run the package on

    A small file system with file objects and mappings, enough to run the
    functions above on concrete inputs.  Files are known by their length;
    a directory has none. *)

Module Sim.

Inductive node :=
| Directory
| Regular (length : Z).

Record sim_world := SimWorld {
  fs : gmap string node;          (* what is at each path *)
  files : gmap file string;       (* open file objects and their paths *)
  next_file : file;               (* the next file object *)
  maps : gmap Z Z;                (* live mappings: base and length *)
  brk : Z                         (* where the next mapping starts *)
}.

Definition EBADF : error := Foreign 9.
Definition EINVAL : error := Foreign 22.
Definition EISDIR : error := Foreign 21.
Definition ENOENT : error := Foreign 2.

Definition sim_ANON : Z := 1.
Definition sim_RDWR : Z := 2.

Definition sim_file_len (w : sim_world) (p : string) : option Z :=
  match fs w !! p with
  | Some (Regular n) => Some n
  | _ => None
  end.

Definition sim_opened_on (w : sim_world) (f : file) : option string :=
  files w !! f.

Definition sim_dirExists (p : string) (w : sim_world) : bool :=
  match fs w !! p with
  | Some Directory => true
  | _ => false
  end.

Definition sim_fileExists (p : string) (w : sim_world) : bool :=
  match fs w !! p with
  | Some (Regular _) => true
  | _ => false
  end.

(** A new file object, open on [p]. *)
Definition sim_open (p : string) (w : sim_world) : file * sim_world :=
  (next_file w,
   SimWorld (fs w) (<[next_file w := p]> (files w)) (Pos.succ (next_file w))
            (maps w) (brk w)).

Definition sim_Create (p : string) (w : sim_world)
  : (error + file) * sim_world :=
  match fs w !! p with
  | Some Directory => (inl EISDIR, w)
  | _ =>
      let w1 := SimWorld (<[p := Regular 0]> (fs w)) (files w) (next_file w)
                         (maps w) (brk w) in
      let '(f, w2) := sim_open p w1 in (inr f, w2)
  end.

Definition sim_OpenFile_RDWR (p : string) (w : sim_world)
  : (error + file) * sim_world :=
  match fs w !! p with
  | Some (Regular _) => let '(f, w') := sim_open p w in (inr f, w')
  | Some Directory => (inl EISDIR, w)
  | None => (inl ENOENT, w)
  end.

Definition sim_fd (f : file) (w : sim_world) : Z :=
  match files w !! f with
  | Some _ => Z.pos f + 2
  | None => -1
  end.

Definition sim_fstat (f : file) (w : sim_world) : error + Z :=
  match files w !! f with
  | Some p =>
      match sim_file_len w p with
      | Some n => inr n
      | None => inl ENOENT
      end
  | None => inl EBADF
  end.

Definition sim_ftruncate (f : file) (n : Z) (w : sim_world)
  : option error * sim_world :=
  match files w !! f with
  | Some p =>
      if n <? 0 then (Some EINVAL, w)
      else (None, SimWorld (<[p := Regular n]> (fs w)) (files w) (next_file w)
                           (maps w) (brk w))
  | None => (Some EBADF, w)
  end.

Definition sim_close (f : file) (w : sim_world) : option error * sim_world :=
  match files w !! f with
  | Some _ =>
      (None, SimWorld (fs w) (delete f (files w)) (next_file w) (maps w) (brk w))
  | None => (Some EBADF, w)
  end.

(** A new mapping of [n] bytes; there is none of no bytes. *)
Definition sim_map (n : Z) (w : sim_world) : (error + slice) * sim_world :=
  if 0 <? n then
    (inr (Slice (brk w) n),
     SimWorld (fs w) (files w) (next_file w) (<[brk w := n]> (maps w))
              (brk w + n))
  else (inl EINVAL, w).

Definition sim_MapRegion (f : option file) (length prot flags offset : Z)
  (w : sim_world) : (error + slice) * sim_world :=
  if Z.testbit flags 0 then sim_map length w
  else
    match f with
    | None => (inl EBADF, w)
    | Some fh =>
        if length <? 0 then
          match sim_fstat fh w with
          | inl e => (inl e, w)
          | inr size => sim_map size w
          end
        else
          match files w !! fh with
          | Some _ => sim_map length w
          | None => (inl EBADF, w)
          end
    end.

Definition sim_Map (f : option file) (prot flags : Z) (w : sim_world)
  : (error + slice) * sim_world :=
  sim_MapRegion f (-1) prot flags 0 w.

Definition sim_unmap (b : slice) (w : sim_world) : option error * sim_world :=
  if 0 <? sl_len b then
    match maps w !! sl_base b with
    | Some _ =>
        (None, SimWorld (fs w) (files w) (next_file w)
                        (delete (sl_base b) (maps w)) (brk w))
    | None => (Some EINVAL, w)
    end
  else (Some EINVAL, w).

Definition sim_flush (b : slice) (w : sim_world) : option error * sim_world :=
  match maps w !! sl_base b with
  | Some _ => (None, w)
  | None => (Some EINVAL, w)
  end.

(** An empty disk but for a directory and a file of 4096 bytes. *)
Definition boot : sim_world :=
  SimWorld (<["/tmp" := Directory]> (<["/tmp/data" := Regular 4096]> ∅))
           ∅ 1%positive ∅ 65536.

Lemma sim_regular_exists w p M :
  sim_file_len w p = Some M ->
  sim_dirExists p w = false /\ sim_fileExists p w = true.
Proof.
  unfold sim_file_len, sim_dirExists, sim_fileExists.
  destruct (fs w !! p) as [[|n]|]; intros H; try discriminate H; auto.
Qed.

Lemma sim_open_ok w p f w' :
  sim_OpenFile_RDWR p w = (inr f, w') ->
  sim_opened_on w' f = Some p /\
  (forall q, sim_file_len w' q = sim_file_len w q).
Proof.
  unfold sim_OpenFile_RDWR, sim_open.
  destruct (fs w !! p) as [[|n]|]; intros H; inversion H; subst; clear H.
  split; [apply lookup_insert_eq | reflexivity].
Qed.

Lemma sim_fd_open w f p : sim_opened_on w f = Some p -> 0 <= sim_fd f w.
Proof. unfold sim_opened_on, sim_fd. intros ->. lia. Qed.

Lemma sim_fstat_ok w f p sz :
  sim_opened_on w f = Some p -> sim_fstat f w = inr sz ->
  sim_file_len w p = Some sz.
Proof.
  unfold sim_opened_on, sim_fstat. intros ->.
  destruct (sim_file_len w p); intros H; inversion H; reflexivity.
Qed.

Lemma sim_map_ok n w b w' :
  sim_map n w = (inr b, w') ->
  len b = n /\ fs w' = fs w /\ files w' = files w.
Proof.
  unfold sim_map. destruct (0 <? n); intros H; inversion H; subst; auto.
Qed.

Lemma sim_map_anon_len w n w' b :
  sim_MapRegion None n sim_RDWR sim_ANON 0 w = (inr b, w') -> len b = n.
Proof. unfold sim_MapRegion. simpl. intros H. apply (sim_map_ok _ _ _ _ H). Qed.

Lemma sim_map_file_ok w f p M w' b :
  sim_opened_on w f = Some p -> sim_file_len w p = Some M ->
  sim_Map (Some f) sim_RDWR 0 w = (inr b, w') ->
  len b = M /\ (forall q, sim_file_len w' q = sim_file_len w q).
Proof.
  unfold sim_opened_on, sim_Map, sim_MapRegion, sim_fstat. simpl.
  intros -> ->. intros H. destruct (sim_map_ok _ _ _ _ H) as (Hl & Hfs & _).
  split; [exact Hl |]. intros q. unfold sim_file_len. rewrite Hfs. reflexivity.
Qed.

Lemma sim_close_closes w f r w' :
  sim_close f w = (r, w') -> sim_opened_on w' f = None.
Proof.
  unfold sim_close, sim_opened_on.
  destruct (files w !! f) eqn:E; intros H; inversion H; subst; simpl.
  - apply lookup_delete_eq.
  - exact E.
Qed.

Lemma sim_unmap_keeps_closed w b r w' f :
  sim_unmap b w = (r, w') -> sim_opened_on w f = None ->
  sim_opened_on w' f = None.
Proof.
  unfold sim_unmap, sim_opened_on.
  destruct (0 <? sl_len b); [destruct (maps w !! sl_base b) |];
    intros H; inversion H; subst; auto.
Qed.

Lemma sim_ftruncate_closed w f n :
  sim_opened_on w f = None -> exists e, fst (sim_ftruncate f n w) = Some e.
Proof.
  unfold sim_opened_on, sim_ftruncate. intros ->. exists EBADF. reflexivity.
Qed.

Lemma sim_unmap_nil w : exists e, fst (sim_unmap nil_slice w) = Some e.
Proof. exists EINVAL. reflexivity. Qed.

#[export] Instance platform : Platform := {|
  world := sim_world;
  ANON := sim_ANON;
  RDWR := sim_RDWR;
  file_len := sim_file_len;
  opened_on := sim_opened_on;
  dirExists := sim_dirExists;
  fileExists := sim_fileExists;
  os_Create := sim_Create;
  os_OpenFile_RDWR := sim_OpenFile_RDWR;
  sys_fd := sim_fd;
  sys_fstat := sim_fstat;
  sys_ftruncate := sim_ftruncate;
  sys_close := sim_close;
  mmap_MapRegion := sim_MapRegion;
  mmap_Map := sim_Map;
  mmap_unmap := sim_unmap;
  mmap_flush := sim_flush;
  regular_exists := sim_regular_exists;
  open_ok := sim_open_ok;
  fd_open := sim_fd_open;
  fstat_ok := sim_fstat_ok;
  map_anon_len := sim_map_anon_len;
  map_file_ok := sim_map_file_ok;
  close_closes := sim_close_closes;
  unmap_keeps_closed := sim_unmap_keeps_closed;
  ftruncate_closed := sim_ftruncate_closed;
  unmap_nil := sim_unmap_nil
|}.

Lemma sim_create_opens w p f w' :
  sim_Create p w = (inr f, w') -> sim_opened_on w' f = Some p.
Proof.
  unfold sim_Create, sim_open, sim_opened_on.
  destruct (fs w !! p) as [[|n]|]; intros H; inversion H; subst; simpl;
    apply lookup_insert_eq.
Qed.

Lemma sim_truncate_ok w f p n w' :
  sim_opened_on w f = Some p -> sim_ftruncate f n w = (None, w') ->
  sim_opened_on w' f = Some p /\ sim_file_len w' p = Some n.
Proof.
  unfold sim_opened_on, sim_ftruncate, sim_file_len. intros Hon. rewrite Hon.
  destruct (n <? 0); intros H; inversion H; subst; simpl.
  split; [exact Hon |]. rewrite lookup_insert_eq. reflexivity.
Qed.

#[export] Instance file_platform : FilePlatform platform := {|
  create_opens := sim_create_opens;
  truncate_ok := sim_truncate_ok
|}.

Lemma sim_map_positive n w b w' : sim_map n w = (inr b, w') -> 0 < n.
Proof.
  unfold sim_map. destruct (0 <? n) eqn:Hn; intros H; [| discriminate H].
  apply Z.ltb_lt, Hn.
Qed.

Lemma sim_map_anon_positive w n w' b :
  sim_MapRegion None n sim_RDWR sim_ANON 0 w = (inr b, w') -> 0 < n.
Proof. unfold sim_MapRegion. simpl. apply sim_map_positive. Qed.

Lemma sim_map_file_nonempty w f p M w' b :
  sim_opened_on w f = Some p -> sim_file_len w p = Some M ->
  sim_Map (Some f) sim_RDWR 0 w = (inr b, w') -> 0 < M.
Proof.
  unfold sim_opened_on, sim_Map, sim_MapRegion, sim_fstat. simpl.
  intros -> ->. apply sim_map_positive.
Qed.

#[export] Instance map_refusals : MapRefusals platform := {|
  map_anon_positive := sim_map_anon_positive;
  map_file_nonempty := sim_map_file_nonempty
|}.

(** The state a program starts in: no region yet. *)
Definition start : state := State ∅ boot.

End Sim.

(** The region of the package's test, [Malloc(10*1024, "")], and the state
    it leaves; the region is at location 1. *)
Definition scratch : state := snd (Malloc (P := Sim.platform) (10 * 1024) "" Sim.start).

(** The file /tmp/data mapped at its own size, [Malloc(-1, "/tmp/data")];
    the region is at location 1. *)
Definition mapped : state :=
  snd (Malloc (P := Sim.platform) (-1) "/tmp/data" Sim.start).

(** The state after [Free] of the mapped file's region. *)
Definition freed : state := snd (Free (P := Sim.platform) 1%positive mapped).

(** A new file of 100 bytes, [Malloc(100, "/tmp/new")]; the region is at
    location 1. *)
Definition sized : state :=
  snd (Malloc (P := Sim.platform) 100 "/tmp/new" Sim.start).

(** The mapped file cut to 100 bytes through its region. *)
Definition cut : state :=
  snd (TruncateTo (P := Sim.platform) 1%positive 100 mapped).

(** The world with a new file /tmp/new of no bytes, open as file object 1. *)
Definition empty_file : Sim.sim_world :=
  snd (Sim.sim_ftruncate 1%positive 0
         (snd (Sim.sim_Create "/tmp/new" Sim.boot))).

(** A program that starts with the empty file /tmp/new on disk. *)
Definition with_empty_file : state := State (P := Sim.platform) ∅ empty_file.

(** ** What is claimed of an outcome *)

(** A method without result fails when it panics. *)
Definition fails {A} (o : outcome A) : Prop :=
  match o with
  | Panicked _ => True
  | Returned _ => False
  end.

(** The region [Malloc] builds for an empty path. *)
Definition anonymous_region (numBytes : Z) (buf : slice) : MmapMalloc :=
  mkMmapMalloc "" None (-1) 0 numBytes buf buf.

(** The region [Malloc] builds for a file of [size] bytes open as [f]. *)
Definition file_region (path : string) (f : file) (fd size : Z) (buf : slice)
  : MmapMalloc :=
  mkMmapMalloc path (Some f) fd size size buf buf.

(** The errors this package makes itself, as against those the platform
    reports: a wrong combination of arguments. *)
Definition ConfigurationError (e : error) : Prop :=
  match e with
  | Errorf _ => True
  | _ => False
  end.

(** The struct [Growmap] has built by the time it truncates: the path and
    the descriptor of the old region, and no file object. *)
Definition grown_stub (old : MmapMalloc) : MmapMalloc :=
  set_Fd (Fd old) (set_Path (Path old) zero_MmapMalloc).

(** The world after the Close of [Free], if the region has a file object. *)
Definition after_Close {P : Platform} (r : MmapMalloc) (w : world) : world :=
  match File r with
  | Some f => snd (sys_close f w)
  | None => w
  end.

(** The file object [Malloc] gets for a path: Create when there is no file
    there, OpenFile for read and write when there is. *)
Definition open_or_create {P : Platform} (path : string) (w : world)
  : (error + file) * world :=
  if negb (fileExists path w) then os_Create path w
  else os_OpenFile_RDWR path w.

(** The size [Malloc] maps for a file object: the file's own size when
    [numBytes] is negative, and otherwise [numBytes], after truncating the
    file to it. *)
Definition resolve_size {P : Platform} (f : file) (numBytes : Z) (w : world)
  : (error + Z) * world :=
  if numBytes <? 0 then (sys_fstat f w, w)
  else
    match sys_ftruncate f numBytes w with
    | (Some e, w') => (inl e, w')
    | (None, w') => (inr numBytes, w')
    end.

(** The map call of [Malloc] for a file object with descriptor [fd]. *)
Definition map_for {P : Platform} (f : file) (fd sz : Z) (w : world)
  : (error + slice) * world :=
  if fd =? -1 then mmap_MapRegion None (int sz) RDWR 0 0 w
  else mmap_Map (Some f) RDWR 0 w.

(** A region like the mapped file's, but whose file has descriptor 0. *)
Definition on_stdin : state :=
  State (P := Sim.platform)
    {[ 1%positive :=
         file_region "/tmp/data" 1%positive 0 4096 (Slice 65536 4096) ]}
    (env mapped).

(** * Properties *)

(** ** Running the monad *)

Section Run.
Context {P : Platform}.

Lemma is_empty_true (s : string) : is_empty s = true <-> s = "".
Proof. destruct s; simpl; split; intros H; congruence. Qed.

Lemma is_empty_false (s : string) : is_empty s = false <-> s <> "".
Proof. destruct s; simpl; split; intros H; congruence. Qed.

Lemma field_run {A} (proj : MmapMalloc -> A) p s r :
  heap s !! p = Some r -> field proj p s = (Returned (proj r), s).
Proof. unfold field. intros ->. reflexivity. Qed.

Lemma field_nil {A} (proj : MmapMalloc -> A) p s :
  heap s !! p = None -> field proj p s = (Panicked NilDereference, s).
Proof. unfold field. intros ->. reflexivity. Qed.

Lemma assign_run upd p s r :
  heap s !! p = Some r ->
  assign upd p s = (Returned tt, State (<[p := upd r]> (heap s)) (env s)).
Proof. unfold assign. intros ->. reflexivity. Qed.

Lemma bind_run {A B} (m : M A) (k : A -> M B) s a s' :
  m s = (Returned a, s') -> bind m k s = k a s'.
Proof. unfold bind. intros ->. reflexivity. Qed.

Lemma bind_panic {A B} (m : M A) (k : A -> M B) s v s' :
  m s = (Panicked v, s') -> bind m k s = (Panicked v, s').
Proof. unfold bind. intros ->. reflexivity. Qed.

Lemma call_run {A} (c : world -> A * world) s :
  call c s = (Returned (fst (c (env s))), State (heap s) (snd (c (env s)))).
Proof. unfold call. destruct (c (env s)). reflexivity. Qed.

Lemma orelse_run (a b : M bool) s x y :
  a s = (Returned x, s) -> b s = (Returned y, s) ->
  orelse a b s = (Returned (x || y), s).
Proof.
  intros Ha Hb. unfold orelse. rewrite (bind_run _ _ _ _ _ Ha).
  destruct x; [reflexivity | exact Hb].
Qed.

Lemma fresh_unused (h : gmap ptr MmapMalloc) : h !! fresh (dom h) = None.
Proof. apply not_elem_of_dom. apply is_fresh. Qed.

Lemma fresh_other (h : gmap ptr MmapMalloc) p r :
  h !! p = Some r -> fresh (dom h) <> p.
Proof. intros Hp E. rewrite <- E, fresh_unused in Hp. discriminate Hp. Qed.

End Run.

(** ** Growmap *)

Section Growmap_facts.
Context {P : Platform}.

(** Every run of [Growmap] on a region of the heap, by its two guards. *)
Lemma Growmap_run (oldmap : ptr) (newSize : Z) (s : state) (r : MmapMalloc) :
  heap s !! oldmap = Some r ->
  Growmap oldmap newSize s =
    if is_empty (Path r) || (Fd r <=? 0) then
      (Returned (None, Some (Errorf Growmap_nofile_msg)), s)
    else if (newSize <=? BytesAlloc r) || (newSize <=? FileBytesLen r) then
      (Returned (None, Some (Errorf Growmap_notlarger_msg)), s)
    else
      (Panicked (PanicError ErrInvalid),
       State (<[fresh (dom (heap s)) := grown_stub r]> (heap s)) (env s)).
Proof.
  intros Hold. unfold Growmap.
  rewrite (bind_run _ _ s (is_empty (Path r) || (Fd r <=? 0)) s)
    by (apply orelse_run;
        rewrite (bind_run _ _ _ _ _ (field_run _ _ _ _ Hold)); reflexivity).
  destruct (is_empty (Path r) || (Fd r <=? 0)); [reflexivity |].
  rewrite (bind_run _ _ s
             ((newSize <=? BytesAlloc r) || (newSize <=? FileBytesLen r)) s)
    by (apply orelse_run;
        rewrite (bind_run _ _ _ _ _ (field_run _ _ _ _ Hold)); reflexivity).
  destruct ((newSize <=? BytesAlloc r) || (newSize <=? FileBytesLen r));
    [reflexivity |].
  pose proof (fresh_other _ _ _ Hold) as Hne.
  set (q := fresh (dom (heap s))) in *.
  set (h1 := <[q := zero_MmapMalloc]> (heap s)).
  set (h2 := <[q := set_Path (Path r) zero_MmapMalloc]> h1).
  set (h3 := <[q := set_Fd (Fd r) (set_Path (Path r) zero_MmapMalloc)]> h2).
  assert (H1 : h1 !! oldmap = Some r)
    by (unfold h1; rewrite lookup_insert_ne by exact Hne; exact Hold).
  assert (H2 : h2 !! oldmap = Some r)
    by (unfold h2; rewrite lookup_insert_ne by exact Hne; exact H1).
  rewrite (bind_run _ _ s q (State h1 (env s))) by reflexivity.
  rewrite (bind_run _ _ _ _ _ (field_run Path oldmap (State h1 _) r H1)).
  rewrite (bind_run _ _ _ tt (State h2 (env s)))
    by (apply (assign_run _ q (State h1 _)), lookup_insert_eq).
  rewrite (bind_run _ _ _ _ _ (field_run Fd oldmap (State h2 _) r H2)).
  rewrite (bind_run _ _ _ tt (State h3 (env s)))
    by (apply (assign_run _ q (State h2 _)), lookup_insert_eq).
  rewrite (bind_run _ _ _ None (State h3 (env s)))
    by (erewrite (field_run File q (State h3 _)) by apply lookup_insert_eq;
        reflexivity).
  rewrite (bind_run _ _ _ (Some ErrInvalid) (State h3 (env s)))
    by reflexivity.
  unfold panic. f_equal. f_equal.
  unfold h3, h2, h1. rewrite !insert_insert_eq. reflexivity.
Qed.

End Growmap_facts.

Section Growmap_claims.
Context {P : Platform}.

(** Without a region behind the pointer the first field read panics. *)
Lemma Growmap_nil (oldmap : ptr) (newSize : Z) (s : state) :
  heap s !! oldmap = None ->
  Growmap oldmap newSize s = (Panicked NilDereference, s).
Proof.
  intros Hnone. unfold Growmap, orelse.
  repeat (apply bind_panic). apply field_nil, Hnone.
Qed.

(** [Growmap] hands no region back, whatever it is given. *)
Lemma Growmap_no_region (oldmap : ptr) (newSize : Z) (s : state) :
  (exists v s', Growmap oldmap newSize s = (Panicked v, s')) \/
  (exists e, Growmap oldmap newSize s = (Returned (None, Some e), s)).
Proof.
  destruct (heap s !! oldmap) as [r|] eqn:Hold.
  - rewrite (Growmap_run _ _ _ _ Hold).
    destruct (is_empty (Path r) || (Fd r <=? 0)); [right; eauto |].
    destruct ((newSize <=? BytesAlloc r) || (newSize <=? FileBytesLen r));
      [right; eauto | left; eauto].
  - left. rewrite (Growmap_nil _ _ _ Hold). eauto.
Qed.

(** C1, as the code has it: for a file-backed old region (a path and a
    descriptor above 0) and a newSize above both its allocatedLength and
    its fileLength, Growmap panics with os.ErrInvalid, the error of the
    Truncate call on the new region's file object, which is still nil.
    The world is as it was, so the backing file has not been truncated,
    and no region is returned. *)
Theorem Growmap_larger_panics (oldmap : ptr) (newSize : Z) (s : state)
    (r : MmapMalloc) :
  heap s !! oldmap = Some r ->
  Path r <> "" -> 0 < Fd r ->
  BytesAlloc r < newSize -> FileBytesLen r < newSize ->
  exists s', Growmap oldmap newSize s = (Panicked (PanicError ErrInvalid), s')
             /\ env s' = env s.
Proof.
  intros Hold Hpath Hfd Ha Hl. rewrite (Growmap_run _ _ _ _ Hold).
  apply is_empty_false in Hpath. rewrite Hpath.
  replace (Fd r <=? 0) with false by (symmetry; apply Z.leb_gt; lia).
  replace (newSize <=? BytesAlloc r) with false by (symmetry; apply Z.leb_gt; lia).
  replace (newSize <=? FileBytesLen r) with false by (symmetry; apply Z.leb_gt; lia).
  simpl. eexists. split; reflexivity.
Qed.

(** C6: for every old region and every newSize that is not above both its
    allocatedLength and its fileLength, Growmap returns nil for the region
    together with an error of the package's own making, and leaves the
    state as it was. *)
Theorem Growmap_not_larger_fails (oldmap : ptr) (newSize : Z) (s : state)
    (r : MmapMalloc) :
  heap s !! oldmap = Some r ->
  ~ (BytesAlloc r < newSize /\ FileBytesLen r < newSize) ->
  exists e, Growmap oldmap newSize s = (Returned (None, Some e), s)
            /\ ConfigurationError e.
Proof.
  intros Hold Hsmall. rewrite (Growmap_run _ _ _ _ Hold).
  destruct (is_empty (Path r) || (Fd r <=? 0)).
  { eexists. split; [reflexivity | exact I]. }
  destruct ((newSize <=? BytesAlloc r) || (newSize <=? FileBytesLen r)) eqn:G.
  { eexists. split; [reflexivity | exact I]. }
  exfalso. apply Hsmall. apply orb_false_iff in G as [G1 G2].
  apply Z.leb_gt in G1, G2. lia.
Qed.

(** C8: Growmap does not write to the old region: after the call, be it a
    returned error or a panic, the struct behind [oldmap] is the one that
    was there before, field by field. *)
Theorem Growmap_keeps_old (oldmap : ptr) (newSize : Z) (s : state) :
  heap (snd (Growmap oldmap newSize s)) !! oldmap = heap s !! oldmap.
Proof.
  destruct (heap s !! oldmap) as [r|] eqn:Hold.
  - rewrite (Growmap_run _ _ _ _ Hold).
    destruct (is_empty (Path r) || (Fd r <=? 0)); [exact Hold |].
    destruct ((newSize <=? BytesAlloc r) || (newSize <=? FileBytesLen r));
      [exact Hold |].
    simpl. rewrite lookup_insert_ne by (eapply fresh_other, Hold). exact Hold.
  - rewrite (Growmap_nil _ _ _ Hold). exact Hold.
Qed.

End Growmap_claims.

Lemma Growmap_larger_panics_witness :
  exists s', Growmap (P := Sim.platform) 1%positive 8192 mapped
             = (Panicked (PanicError ErrInvalid), s')
             /\ env s' = env mapped.
Proof.
  apply (Growmap_larger_panics (P := Sim.platform) 1%positive 8192 mapped
           (file_region "/tmp/data" 1%positive 3 4096 (Slice 65536 4096)));
    [vm_compute; reflexivity | discriminate | simpl; lia | simpl; lia
    | simpl; lia].
Defined.

Lemma Growmap_not_larger_fails_witness :
  exists e, Growmap (P := Sim.platform) 1%positive 4096 mapped
            = (Returned (None, Some e), mapped)
            /\ ConfigurationError e.
Proof.
  apply (Growmap_not_larger_fails (P := Sim.platform) 1%positive 4096 mapped
           (file_region "/tmp/data" 1%positive 3 4096 (Slice 65536 4096)));
    [vm_compute; reflexivity | simpl; lia].
Defined.

(** ** Malloc *)

Section Malloc_runs.
Context {P : Platform}.

(** Every run of [Malloc] with a path: the directory test, the file
    object, the size and the mapping, each of which can end the run. *)
Lemma Malloc_path_run (numBytes : Z) (path : string) (s : state) :
  path <> "" ->
  Malloc numBytes path s =
    if dirExists path (env s) then
      (Panicked (PanicString (Malloc_isdir_msg path)), s)
    else
      match open_or_create path (env s) with
      | (inl e, w1) => (Panicked (PanicError e), State (heap s) w1)
      | (inr f, w1) =>
          match resolve_size f numBytes w1 with
          | (inl e, w2) => (Panicked (PanicError e), State (heap s) w2)
          | (inr sz, w2) =>
              match map_for f (int (sys_fd f w1)) sz w2 with
              | (inl e, w3) => (Panicked (PanicError e), State (heap s) w3)
              | (inr buf, w3) =>
                  (Returned (fresh (dom (heap s))),
                   State (<[fresh (dom (heap s)) :=
                              file_region path f (int (sys_fd f w1)) sz buf]>
                            (heap s)) w3)
              end
          end
      end.
Proof.
  intros Hpath. apply is_empty_false in Hpath.
  unfold Malloc, open_or_create, resolve_size, map_for.
  rewrite Hpath. simpl negb. cbv iota.
  unfold bind, ask, call, ret, new, panic. simpl.
  destruct (dirExists path (env s)); [reflexivity |].
  destruct (fileExists path (env s)); simpl.
  - destruct (os_OpenFile_RDWR path (env s)) as [[e|f] w1]; [reflexivity |].
    simpl. destruct (numBytes <? 0); simpl.
    + destruct (sys_fstat f w1) as [e|sz]; [reflexivity |]. simpl.
      destruct (int (sys_fd f w1) =? -1); simpl.
      * destruct (mmap_MapRegion None (int sz) RDWR 0 0 w1) as [[e|buf] w3];
          reflexivity.
      * destruct (mmap_Map (Some f) RDWR 0 w1) as [[e|buf] w3]; reflexivity.
    + destruct (sys_ftruncate f numBytes w1) as [[e|] w2]; [reflexivity |].
      simpl. destruct (int (sys_fd f w1) =? -1); simpl.
      * destruct (mmap_MapRegion None (int numBytes) RDWR 0 0 w2)
          as [[e|buf] w3]; reflexivity.
      * destruct (mmap_Map (Some f) RDWR 0 w2) as [[e|buf] w3]; reflexivity.
  - destruct (os_Create path (env s)) as [[e|f] w1]; [reflexivity |].
    simpl. destruct (numBytes <? 0); simpl.
    + destruct (sys_fstat f w1) as [e|sz]; [reflexivity |]. simpl.
      destruct (int (sys_fd f w1) =? -1); simpl.
      * destruct (mmap_MapRegion None (int sz) RDWR 0 0 w1) as [[e|buf] w3];
          reflexivity.
      * destruct (mmap_Map (Some f) RDWR 0 w1) as [[e|buf] w3]; reflexivity.
    + destruct (sys_ftruncate f numBytes w1) as [[e|] w2]; [reflexivity |].
      simpl. destruct (int (sys_fd f w1) =? -1); simpl.
      * destruct (mmap_MapRegion None (int numBytes) RDWR 0 0 w2)
          as [[e|buf] w3]; reflexivity.
      * destruct (mmap_Map (Some f) RDWR 0 w2) as [[e|buf] w3]; reflexivity.
Qed.

End Malloc_runs.

Section Malloc_claims.
Context {P : Platform}.

(** Every run of [Malloc] with an empty path: one test of the sign and
    one call of [mmap.MapRegion]. *)
Lemma Malloc_anonymous_run (numBytes : Z) (s : state) :
  Malloc numBytes "" s =
    if numBytes <? 0 then (Panicked (PanicString Malloc_nosize_msg), s)
    else
      match mmap_MapRegion None (int numBytes) RDWR ANON 0 (env s) with
      | (inr buf, w') =>
          (Returned (fresh (dom (heap s))),
           State (<[fresh (dom (heap s)) := anonymous_region numBytes buf]>
                    (heap s)) w')
      | (inl err, w') => (Panicked (PanicError err), State (heap s) w')
      end.
Proof.
  unfold Malloc, bind, ret, panic, call, new. simpl.
  destruct (numBytes <? 0); [reflexivity |]. simpl.
  destruct (mmap_MapRegion None (int numBytes) RDWR ANON 0 (env s))
    as [[err|buf] w']; reflexivity.
Qed.

(** C4: for every negative numBytes, Malloc with an empty path panics with
    the package's own message that it does not know how much to allocate,
    before any call to the platform: the state, hence the set of mappings,
    is as it was. *)
Theorem Malloc_negative_no_path (numBytes : Z) (s : state) :
  numBytes < 0 ->
  Malloc numBytes "" s = (Panicked (PanicString Malloc_nosize_msg), s).
Proof.
  intros Hneg. rewrite Malloc_anonymous_run.
  apply Z.ltb_lt in Hneg. rewrite Hneg. reflexivity.
Qed.

(** C3, as the code has it: for every numBytes >= 0, Malloc with an empty
    path makes one call, for an anonymous mapping of numBytes bytes, and
    succeeds exactly when that call does, which it never does for 0 bytes.
    When the mapping is granted Malloc returns a new region whose Mem (and
    MMap) is that buffer, of length numBytes exactly, and whose BytesAlloc
    is numBytes; when it is refused Malloc panics with the error of the
    call and no region is made. *)
Theorem Malloc_anonymous_length `{!MapRefusals P} (numBytes : Z) (s : state) :
  0 <= numBytes ->
  (numBytes = 0 -> fails (fst (Malloc numBytes "" s))) /\
  match mmap_MapRegion None (int numBytes) RDWR ANON 0 (env s) with
  | (inr buf, w') =>
      exists p r,
        Malloc numBytes "" s = (Returned p, State (<[p := r]> (heap s)) w') /\
        heap s !! p = None /\
        Mem r = buf /\ MMap r = buf /\
        len (Mem r) = numBytes /\ BytesAlloc r = numBytes
  | (inl e, w') =>
      Malloc numBytes "" s = (Panicked (PanicError e), State (heap s) w')
  end.
Proof.
  intros Hpos. rewrite Malloc_anonymous_run.
  replace (numBytes <? 0) with false by (symmetry; apply Z.ltb_ge; lia).
  destruct (mmap_MapRegion None (int numBytes) RDWR ANON 0 (env s))
    as [[e|buf] w'] eqn:Hmap.
  - split; [intros _; exact I | reflexivity].
  - pose proof (map_anon_positive _ _ _ _ Hmap) as Hn. unfold int in Hn.
    split; [intros ->; lia |].
    exists (fresh (dom (heap s))), (anonymous_region numBytes buf).
    repeat split.
    + apply fresh_unused.
    + simpl. apply (map_anon_len _ _ _ _ Hmap).
Qed.

(** C9: every region Malloc returns for an empty path, whatever the size
    asked, has no file object, the descriptor -1 and the empty path. *)
Theorem Malloc_anonymous_shape (numBytes : Z) (s s' : state) (p : ptr) :
  Malloc numBytes "" s = (Returned p, s') ->
  exists r, heap s' !! p = Some r /\
            File r = None /\ Fd r = -1 /\ Path r = "".
Proof.
  rewrite Malloc_anonymous_run.
  destruct (numBytes <? 0); [discriminate |].
  destruct (mmap_MapRegion None (int numBytes) RDWR ANON 0 (env s))
    as [[err|buf] w']; [discriminate |].
  intros H. inversion H; subst; clear H.
  exists (anonymous_region numBytes buf). simpl.
  rewrite lookup_insert_eq. auto.
Qed.

(** C5, as the code has it: for every regular file at a path, M bytes long,
    and every negative numBytes, Malloc opens the file, takes its size and
    maps it, with no Truncate, and succeeds exactly when these three calls
    do; the map call never does for an empty file, so for M = 0 Malloc
    fails.  When they succeed Malloc returns a new region with
    BytesAlloc = FileBytesLen = M whose buffer has M bytes, and every file,
    the one at the path among them, has the length it had; when one of
    them reports an error Malloc panics with it and no region is made. *)
Theorem Malloc_inherits_size `{!MapRefusals P} (numBytes : Z) (path : string)
    (s : state) (M : Z) :
  path <> "" -> numBytes < 0 ->
  file_len (env s) path = Some M ->
  (M = 0 -> fails (fst (Malloc numBytes path s))) /\
  match os_OpenFile_RDWR path (env s) with
  | (inl e, w1) =>
      Malloc numBytes path s = (Panicked (PanicError e), State (heap s) w1)
  | (inr f, w1) =>
      match sys_fstat f w1 with
      | inl e =>
          Malloc numBytes path s
          = (Panicked (PanicError e), State (heap s) w1)
      | inr sz =>
          match mmap_Map (Some f) RDWR 0 w1 with
          | (inl e, w2) =>
              Malloc numBytes path s
              = (Panicked (PanicError e), State (heap s) w2)
          | (inr buf, w2) =>
              exists p r,
                Malloc numBytes path s
                = (Returned p, State (<[p := r]> (heap s)) w2) /\
                heap s !! p = None /\
                BytesAlloc r = M /\ FileBytesLen r = M /\ len (Mem r) = M /\
                Path r = path /\ File r = Some f /\
                file_len w2 path = Some M /\
                (forall q, file_len w2 q = file_len (env s) q)
          end
      end
  end.
Proof.
  intros Hpath Hneg Hlen.
  destruct (regular_exists _ _ _ Hlen) as [Hdir Hfile].
  rewrite (Malloc_path_run _ _ _ Hpath), Hdir.
  unfold open_or_create. rewrite Hfile. simpl negb. cbv iota.
  destruct (os_OpenFile_RDWR path (env s)) as [[e|f] w1] eqn:Hopen.
  { split; [intros _; exact I | reflexivity]. }
  destruct (open_ok _ _ _ _ Hopen) as [Hon Hsame].
  assert (Hlen1 : file_len w1 path = Some M) by (rewrite Hsame; exact Hlen).
  pose proof (fd_open _ _ _ Hon) as Hfd.
  unfold resolve_size. apply Z.ltb_lt in Hneg. rewrite Hneg.
  destruct (sys_fstat f w1) as [e|sz] eqn:Hstat.
  { split; [intros _; exact I | reflexivity]. }
  pose proof (fstat_ok _ _ _ _ Hon Hstat) as Hsz.
  assert (sz = M) by congruence. subst sz.
  unfold map_for.
  replace (int (sys_fd f w1) =? -1) with false
    by (symmetry; apply Z.eqb_neq; unfold int; lia).
  destruct (mmap_Map (Some f) RDWR 0 w1) as [[e|buf] w2] eqn:Hmap.
  { split; [intros _; exact I | reflexivity]. }
  destruct (map_file_ok _ _ _ _ _ _ Hon Hlen1 Hmap) as [Hbuf Hsame2].
  pose proof (map_file_nonempty _ _ _ _ _ _ Hon Hlen1 Hmap) as HM.
  split; [intros ->; lia |].
  exists (fresh (dom (heap s))),
         (file_region path f (int (sys_fd f w1)) M buf).
  repeat split; auto using fresh_unused.
  - rewrite Hsame2. exact Hlen1.
  - intros q. rewrite Hsame2. apply Hsame.
Qed.

End Malloc_claims.

Lemma Malloc_negative_no_path_witness :
  Malloc (P := Sim.platform) (-1) "" Sim.start
  = (Panicked (PanicString Malloc_nosize_msg), Sim.start).
Proof.
  apply (Malloc_negative_no_path (P := Sim.platform) (-1) Sim.start). lia.
Defined.

Lemma Malloc_anonymous_length_witness :
  exists p r,
    Malloc (P := Sim.platform) 10240 "" Sim.start
    = (Returned p, State (<[p := r]> (heap Sim.start)) (env scratch)) /\
    heap Sim.start !! p = None /\
    Mem r = Slice 65536 10240 /\ MMap r = Slice 65536 10240 /\
    len (Mem r) = 10240 /\ BytesAlloc r = 10240.
Proof.
  exact (proj2 (@Malloc_anonymous_length Sim.platform Sim.map_refusals
                  10240 Sim.start ltac:(lia))).
Defined.

(** C3 fails on the code: no mapping of 0 bytes is granted, so
    Malloc(0, "") panics with the error of the map call and returns no
    region. *)
Lemma Malloc_zero_panics :
  Malloc (P := Sim.platform) 0 "" Sim.start
  = (Panicked (PanicError Sim.EINVAL), Sim.start) /\
  ~ exists p s', Malloc (P := Sim.platform) 0 "" Sim.start = (Returned p, s').
Proof.
  assert (H : Malloc (P := Sim.platform) 0 "" Sim.start
              = (Panicked (PanicError Sim.EINVAL), Sim.start))
    by (vm_compute; reflexivity).
  split; [exact H |]. intros (p & s' & Hr). rewrite H in Hr. discriminate Hr.
Qed.

Lemma Malloc_anonymous_shape_witness :
  exists r, heap scratch !! 1%positive = Some r /\
            File r = None /\ Fd r = -1 /\ Path r = "".
Proof.
  apply (Malloc_anonymous_shape (P := Sim.platform) 10240 Sim.start scratch
           1%positive).
  vm_compute; reflexivity.
Defined.

Lemma Malloc_inherits_size_witness :
  exists p r,
    Malloc (P := Sim.platform) (-1) "/tmp/data" Sim.start
    = (Returned p, State (<[p := r]> (heap Sim.start)) (env mapped)) /\
    heap Sim.start !! p = None /\
    BytesAlloc r = 4096 /\ FileBytesLen r = 4096 /\ len (Mem r) = 4096 /\
    Path r = "/tmp/data" /\ File r = Some 1%positive /\
    Sim.sim_file_len (env mapped) "/tmp/data" = Some 4096 /\
    (forall q, Sim.sim_file_len (env mapped) q = Sim.sim_file_len Sim.boot q).
Proof.
  exact (proj2 (@Malloc_inherits_size Sim.platform Sim.map_refusals
                  (-1) "/tmp/data" Sim.start 4096
                  ltac:(discriminate) ltac:(lia) eq_refl)).
Defined.

(** C5 fails on the code: /tmp/new is a regular file of 0 bytes, and
    Malloc(-1, "/tmp/new") opens it and takes its size, is refused the
    mapping of no bytes, and panics: no region is returned. *)
Lemma Malloc_empty_file_panics :
  Sim.sim_file_len (env with_empty_file) "/tmp/new" = Some 0 /\
  fst (Malloc (P := Sim.platform) (-1) "/tmp/new" with_empty_file)
  = Panicked (PanicError Sim.EINVAL) /\
  ~ exists p s',
      Malloc (P := Sim.platform) (-1) "/tmp/new" with_empty_file
      = (Returned p, s').
Proof.
  assert (H : fst (Malloc (P := Sim.platform) (-1) "/tmp/new" with_empty_file)
              = Panicked (PanicError Sim.EINVAL))
    by (vm_compute; reflexivity).
  split; [vm_compute; reflexivity |]. split; [exact H |].
  intros (p & s' & Hr). rewrite Hr in H. discriminate H.
Qed.

(** ** TruncateTo, Free and the two syncs *)

Section Method_runs.
Context {P : Platform}.

Lemma TruncateTo_run (mm : ptr) (newSize : Z) (s : state) (r : MmapMalloc) :
  heap s !! mm = Some r ->
  TruncateTo mm newSize s =
    match File r with
    | None => (Panicked (PanicString TruncateTo_nonfile_msg), s)
    | Some f =>
        (match fst (sys_ftruncate f newSize (env s)) with
         | Some e => Panicked (PanicError e)
         | None => Returned tt
         end,
         State (heap s) (snd (sys_ftruncate f newSize (env s))))
    end.
Proof.
  intros Hmm. unfold TruncateTo.
  rewrite (bind_run _ _ _ _ _ (field_run File _ _ _ Hmm)).
  destruct (File r) as [f|]; [| reflexivity].
  rewrite (bind_run _ _ _ _ _ (call_run _ s)). simpl.
  destruct (fst (sys_ftruncate f newSize (env s))); reflexivity.
Qed.

Lemma Sync_run (mm : ptr) (s : state) (r : MmapMalloc) :
  heap s !! mm = Some r ->
  BlockUntilSync mm s =
    (Returned tt, State (heap s) (snd (mmap_flush (MMap r) (env s)))).
Proof.
  intros Hmm. unfold BlockUntilSync, MMap_Flush.
  erewrite bind_run; [reflexivity |].
  rewrite (bind_run _ _ _ _ _ (field_run MMap _ _ _ Hmm)). apply call_run.
Qed.

Lemma Free_run (mm : ptr) (s : state) (r : MmapMalloc) :
  heap s !! mm = Some r ->
  Free mm s =
    (match fst (mmap_unmap (MMap r) (after_Close r (env s))) with
     | Some e => Panicked (PanicError e)
     | None => Returned tt
     end,
     State (<[mm := set_MMap nil_slice r]> (heap s))
           (snd (mmap_unmap (MMap r) (after_Close r (env s))))).
Proof.
  intros Hmm. unfold Free, after_Close.
  rewrite (bind_run _ _ _ _ _ (field_run File _ _ _ Hmm)).
  set (w1 := match File r with
             | Some f => snd (sys_close f (env s))
             | None => env s
             end).
  rewrite (bind_run _ _ s tt (State (heap s) w1)).
  2: { unfold w1. destruct (File r) as [f|]; [| destruct s; reflexivity].
       rewrite (bind_run _ _ _ _ _ (call_run _ s)). reflexivity. }
  unfold MMap_Unmap.
  rewrite (bind_run _ _ _ (fst (mmap_unmap (MMap r) w1))
             (State (<[mm := set_MMap nil_slice r]> (heap s))
                    (snd (mmap_unmap (MMap r) w1)))).
  - destruct (fst (mmap_unmap (MMap r) w1)); reflexivity.
  - rewrite (bind_run _ _ _ _ _ (field_run MMap mm (State (heap s) w1) r Hmm)).
    rewrite (bind_run _ _ _ _ _ (call_run _ _)). simpl.
    rewrite (bind_run _ _ _ tt
               (State (<[mm := set_MMap nil_slice r]> (heap s))
                      (snd (mmap_unmap (MMap r) w1))));
      [reflexivity | apply (assign_run _ _ (State (heap s) _)), Hmm].
Qed.

Lemma Free_nil (mm : ptr) (s : state) :
  heap s !! mm = None -> Free mm s = (Panicked NilDereference, s).
Proof.
  intros Hnone. unfold Free. apply bind_panic, field_nil, Hnone.
Qed.

End Method_runs.

Section Method_claims.
Context {P : Platform}.

(** C7: for every file-backed region and every newSize, TruncateTo makes
    one call, Truncate on the region's file object, and writes nothing to
    the heap: the region's struct, with its buffer, the buffer's length,
    BytesAlloc, Path and Fd, is the same after the call, whether the call
    returns or panics.  The world after the call is the one the platform's
    truncate leaves. *)
Theorem TruncateTo_frame (mm : ptr) (newSize : Z) (s : state)
    (r : MmapMalloc) (f : file) :
  heap s !! mm = Some r -> File r = Some f ->
  heap (snd (TruncateTo mm newSize s)) = heap s /\
  heap (snd (TruncateTo mm newSize s)) !! mm = Some r /\
  env (snd (TruncateTo mm newSize s)) = snd (sys_ftruncate f newSize (env s)) /\
  (fails (fst (TruncateTo mm newSize s)) <->
   fst (sys_ftruncate f newSize (env s)) <> None).
Proof.
  intros Hmm Hfile. rewrite (TruncateTo_run _ _ _ _ Hmm), Hfile. simpl.
  split; [reflexivity |]. split; [exact Hmm |]. split; [reflexivity |].
  destruct (fst (sys_ftruncate f newSize (env s))); simpl;
    split; intros H; try discriminate; try exact I; try contradiction.
Qed.

(** C10: BackgroundSync and BlockUntilSync are the same function of the
    region and the state: each reads the region's MMap, makes the one
    Flush call on it and drops what Flush returns, so each returns only
    when that call has. *)
Theorem BackgroundSync_is_BlockUntilSync (mm : ptr) (s : state) :
  BackgroundSync mm s = BlockUntilSync mm s /\
  BlockUntilSync mm s =
    match heap s !! mm with
    | Some r =>
        (Returned tt, State (heap s) (snd (mmap_flush (MMap r) (env s))))
    | None => (Panicked NilDereference, s)
    end.
Proof.
  split; [reflexivity |].
  destruct (heap s !! mm) as [r|] eqn:Hmm.
  - apply Sync_run, Hmm.
  - unfold BlockUntilSync, MMap_Flush. repeat apply bind_panic.
    apply field_nil, Hmm.
Qed.

(** C2, as the code has it: once Free has returned for a region, TruncateTo
    and a second Free on it panic and Growmap hands back no region (it
    panics or returns an error), but BlockUntilSync and BackgroundSync
    return as usual, with nothing reported and the heap as it was: they
    drop the result of Flush, and nothing in the struct says it was freed. *)
Theorem freed_region_operations (mm : ptr) (s s1 : state) :
  Free mm s = (Returned tt, s1) ->
  (forall n, fails (fst (TruncateTo mm n s1))) /\
  fails (fst (Free mm s1)) /\
  (forall n,
     (exists v s2, Growmap mm n s1 = (Panicked v, s2)) \/
     (exists e, Growmap mm n s1 = (Returned (None, Some e), s1))) /\
  (exists s2, BlockUntilSync mm s1 = (Returned tt, s2) /\ heap s2 = heap s1) /\
  (exists s2, BackgroundSync mm s1 = (Returned tt, s2) /\ heap s2 = heap s1).
Proof.
  intros Hfree.
  destruct (heap s !! mm) as [r|] eqn:Hmm;
    [| rewrite (Free_nil _ _ Hmm) in Hfree; discriminate].
  rewrite (Free_run _ _ _ Hmm) in Hfree.
  set (w1 := after_Close r (env s)) in *.
  destruct (mmap_unmap (MMap r) w1) as [res w2] eqn:Hunmap. simpl in Hfree.
  destruct res; [discriminate |]. inversion Hfree; subst s1; clear Hfree.
  set (h1 := <[mm := set_MMap nil_slice r]> (heap s)).
  assert (H1 : heap (State h1 w2) !! mm = Some (set_MMap nil_slice r))
    by apply lookup_insert_eq.
  split; [| split; [| split; [| split]]].
  - intros n. rewrite (TruncateTo_run _ _ _ _ H1). simpl.
    destruct (File r) as [f|] eqn:Hf; [| exact I]. simpl.
    assert (Hclosed : opened_on w2 f = None).
    { apply (unmap_keeps_closed _ _ _ _ _ Hunmap).
      unfold w1, after_Close. rewrite Hf.
      apply (close_closes (env s) f (fst (sys_close f (env s)))).
      destruct (sys_close f (env s)); reflexivity. }
    destruct (ftruncate_closed w2 f n Hclosed) as [e He].
    rewrite He. exact I.
  - rewrite (Free_run _ _ _ H1). simpl.
    destruct (unmap_nil (after_Close (set_MMap nil_slice r) w2)) as [e He].
    rewrite He. exact I.
  - intros n. apply Growmap_no_region.
  - eexists. split; [apply (Sync_run _ _ _ H1) | reflexivity].
  - eexists. split; [apply (Sync_run _ _ _ H1) | reflexivity].
Qed.

End Method_claims.

Lemma TruncateTo_frame_witness :
  heap (snd (TruncateTo (P := Sim.platform) 1%positive 100 mapped))
  = heap mapped /\
  heap (snd (TruncateTo (P := Sim.platform) 1%positive 100 mapped)) !! 1%positive
  = Some (file_region "/tmp/data" 1%positive 3 4096 (Slice 65536 4096)) /\
  env (snd (TruncateTo (P := Sim.platform) 1%positive 100 mapped))
  = snd (Sim.sim_ftruncate 1%positive 100 (env mapped)) /\
  (fails (fst (TruncateTo (P := Sim.platform) 1%positive 100 mapped)) <->
   fst (Sim.sim_ftruncate 1%positive 100 (env mapped)) <> None).
Proof.
  apply (TruncateTo_frame (P := Sim.platform) 1%positive 100 mapped
           (file_region "/tmp/data" 1%positive 3 4096 (Slice 65536 4096))
           1%positive);
    [vm_compute; reflexivity | reflexivity].
Defined.

(** C2 fails on the code: the region of the mapped file is freed, Free
    returning normally, and then BlockUntilSync and BackgroundSync on the
    freed region both return normally instead of failing. *)
Lemma sync_after_Free_returns :
  Free (P := Sim.platform) 1%positive mapped = (Returned tt, freed) /\
  ~ fails (fst (BlockUntilSync (P := Sim.platform) 1%positive freed)) /\
  ~ fails (fst (BackgroundSync (P := Sim.platform) 1%positive freed)) /\
  BlockUntilSync (P := Sim.platform) 1%positive freed = (Returned tt, freed).
Proof.
  repeat split; try (vm_compute; tauto); vm_compute; reflexivity.
Qed.

Lemma freed_region_operations_witness :
  (forall n, fails (fst (TruncateTo (P := Sim.platform) 1%positive n freed))) /\
  fails (fst (Free (P := Sim.platform) 1%positive freed)) /\
  (forall n,
     (exists v s2,
        Growmap (P := Sim.platform) 1%positive n freed = (Panicked v, s2)) \/
     (exists e,
        Growmap (P := Sim.platform) 1%positive n freed
        = (Returned (None, Some e), freed))) /\
  (exists s2, BlockUntilSync (P := Sim.platform) 1%positive freed
              = (Returned tt, s2) /\ heap s2 = heap freed) /\
  (exists s2, BackgroundSync (P := Sim.platform) 1%positive freed
              = (Returned tt, s2) /\ heap s2 = heap freed).
Proof.
  apply (freed_region_operations (P := Sim.platform) 1%positive mapped freed).
  vm_compute; reflexivity.
Defined.

(** ** The package's test *)

(** [TestMalloc] of malloc_test.go: a region of 10*1024 bytes with no path
    is allocated at location 1 with a buffer of that length, and Free
    returns. *)
Example TestMalloc_runs :
  fst (Malloc (P := Sim.platform) (10 * 1024) "" Sim.start) = Returned 1%positive /\
  (Mem <$> heap scratch !! 1%positive) = Some (Slice 65536 10240) /\
  fst (Free (P := Sim.platform) 1%positive scratch) = Returned tt.
Proof. repeat split; vm_compute; reflexivity. Qed.

(** A path that is a directory is refused with the package's message. *)
Example Malloc_directory_refused :
  Malloc (P := Sim.platform) 10 "/tmp" Sim.start
  = (Panicked (PanicString (Malloc_isdir_msg "/tmp")), Sim.start).
Proof. vm_compute; reflexivity. Qed.

(** A path with no file gets a new file of the size asked for. *)
Example Malloc_creates_file :
  fst (Malloc (P := Sim.platform) 100 "/tmp/new" Sim.start) = Returned 1%positive /\
  Sim.sim_file_len (env (snd (Malloc (P := Sim.platform) 100 "/tmp/new" Sim.start)))
    "/tmp/new" = Some 100.
Proof. split; vm_compute; reflexivity. Qed.

(** ** More of Malloc *)


Section Malloc_more.
Context {P : Platform}.

(** What [Malloc] does to the heap: nothing when it panics, and one new
    struct at an unused location when it returns. *)
Lemma Malloc_heap (numBytes : Z) (path : string) (s : state) :
  (exists v w', Malloc numBytes path s = (Panicked v, State (heap s) w')) \/
  (exists r w',
     Malloc numBytes path s
     = (Returned (fresh (dom (heap s))),
        State (<[fresh (dom (heap s)) := r]> (heap s)) w') /\
     Path r = path /\ MMap r = Mem r /\
     (0 <= numBytes -> BytesAlloc r = numBytes) /\
     (path <> "" -> File r <> None /\ FileBytesLen r = BytesAlloc r)).
Proof.
  destruct (decide (path = "")) as [-> | Hpath].
  - rewrite Malloc_anonymous_run.
    destruct (numBytes <? 0); [left; destruct s; eauto |].
    destruct (mmap_MapRegion None (int numBytes) RDWR ANON 0 (env s))
      as [[e|buf] w']; [left; eauto |].
    right. exists (anonymous_region numBytes buf), w'.
    repeat split; auto; congruence.
  - rewrite (Malloc_path_run _ _ _ Hpath).
    destruct (dirExists path (env s)); [left; destruct s; eauto |].
    destruct (open_or_create path (env s)) as [[e|f] w1]; [left; eauto |].
    unfold resolve_size.
    destruct (numBytes <? 0) eqn:Hn.
    + destruct (sys_fstat f w1) as [e|sz]; [left; eauto |].
      destruct (map_for f (int (sys_fd f w1)) sz w1) as [[e|buf] w3];
        [left; eauto |].
      right. eexists (file_region path f _ sz buf), w3.
      apply Z.ltb_lt in Hn.
      repeat split; auto; simpl; try discriminate; lia.
    + destruct (sys_ftruncate f numBytes w1) as [[e|] w2]; [left; eauto |].
      destruct (map_for f (int (sys_fd f w1)) numBytes w2) as [[e|buf] w3];
        [left; eauto |].
      right. eexists (file_region path f _ numBytes buf), w3.
      repeat split; auto; simpl; discriminate.
Qed.

(** X1: Malloc writes to no region that exists: every struct of the heap
    is the same afterwards, a panic leaves the heap as it was, and the
    pointer returned was not in use before the call. *)
Theorem Malloc_keeps_regions (numBytes : Z) (path : string) (s : state) :
  (forall q r, heap s !! q = Some r ->
               heap (snd (Malloc numBytes path s)) !! q = Some r) /\
  (forall v, fst (Malloc numBytes path s) = Panicked v ->
             heap (snd (Malloc numBytes path s)) = heap s) /\
  (forall p, fst (Malloc numBytes path s) = Returned p ->
             heap s !! p = None /\
             heap (snd (Malloc numBytes path s)) !! p <> None).
Proof.
  destruct (Malloc_heap numBytes path s)
    as [(v & w' & ->) | (r & w' & -> & _)]; simpl.
  - repeat split; auto; discriminate.
  - split; [| split].
    + intros q r0 Hq. rewrite lookup_insert_ne; [exact Hq |].
      eapply fresh_other, Hq.
    + discriminate.
    + intros p Hp. inversion Hp; subst.
      rewrite lookup_insert_eq. split; [apply fresh_unused | discriminate].
Qed.

(** X2: every region Malloc returns, for any size and path, has the path
    it was asked for and MMap equal to Mem; BytesAlloc is numBytes when
    numBytes is not negative; and a region with a path has a file object
    and FileBytesLen equal to BytesAlloc. *)
Theorem Malloc_region_invariants (numBytes : Z) (path : string)
    (s s' : state) (p : ptr) :
  Malloc numBytes path s = (Returned p, s') ->
  exists r, heap s' !! p = Some r /\
            Path r = path /\ MMap r = Mem r /\
            (0 <= numBytes -> BytesAlloc r = numBytes) /\
            (path <> "" -> File r <> None /\ FileBytesLen r = BytesAlloc r).
Proof.
  destruct (Malloc_heap numBytes path s)
    as [(v & w' & ->) | (r & w' & -> & Hr)]; [discriminate |].
  intros H. inversion H; subst. exists r. simpl.
  rewrite lookup_insert_eq. split; [reflexivity | exact Hr].
Qed.

(** X3: a path that is a directory is refused whatever the size asked,
    with the message that names the path, before anything is created,
    opened or mapped: the state is as it was. *)
Theorem Malloc_directory_panics (numBytes : Z) (path : string) (s : state) :
  path <> "" -> dirExists path (env s) = true ->
  Malloc numBytes path s
  = (Panicked (PanicString (Malloc_isdir_msg path)), s).
Proof.
  intros Hpath Hdir. rewrite (Malloc_path_run _ _ _ Hpath), Hdir. reflexivity.
Qed.

(** A file object [Malloc] got for a path is open on it. *)
Lemma open_or_create_opens `{!FilePlatform P} path w f w1 :
  open_or_create path w = (inr f, w1) -> opened_on w1 f = Some path.
Proof.
  unfold open_or_create. destruct (fileExists path w); simpl.
  - intros H. apply (open_ok _ _ _ _ H).
  - apply create_opens.
Qed.

(** With an open file object the map call is [mmap.Map] on it. *)
Lemma map_for_open f w1 path sz w :
  opened_on w1 f = Some path ->
  map_for f (int (sys_fd f w1)) sz w = mmap_Map (Some f) RDWR 0 w.
Proof.
  intros Hon. pose proof (fd_open _ _ _ Hon) as Hfd. unfold map_for.
  replace (int (sys_fd f w1) =? -1) with false
    by (symmetry; apply Z.eqb_neq; unfold int; lia).
  reflexivity.
Qed.

(** X4: with a path that is no directory and numBytes >= 0, Malloc opens
    the file there, or creates it when there is none, and truncates it to
    numBytes; these calls and the map call succeeding, it returns a new
    region with FileBytesLen = BytesAlloc = numBytes and a buffer of
    numBytes bytes, and the file at the path is numBytes long. *)
Theorem Malloc_sized_file `{!FilePlatform P} (numBytes : Z) (path : string)
    (s : state) (f : file) (w1 w2 w3 : world) (buf : slice) :
  path <> "" -> 0 <= numBytes ->
  dirExists path (env s) = false ->
  open_or_create path (env s) = (inr f, w1) ->
  sys_ftruncate f numBytes w1 = (None, w2) ->
  mmap_Map (Some f) RDWR 0 w2 = (inr buf, w3) ->
  exists p r,
    Malloc numBytes path s = (Returned p, State (<[p := r]> (heap s)) w3) /\
    heap s !! p = None /\
    Path r = path /\ File r = Some f /\
    FileBytesLen r = numBytes /\ BytesAlloc r = numBytes /\
    Mem r = buf /\ len (Mem r) = numBytes /\
    file_len w3 path = Some numBytes.
Proof.
  intros Hpath Hpos Hdir Hopen Htrunc Hmap.
  pose proof (open_or_create_opens _ _ _ _ Hopen) as Hon.
  destruct (truncate_ok _ _ _ _ _ Hon Htrunc) as [Hon2 Hlen2].
  destruct (map_file_ok _ _ _ _ _ _ Hon2 Hlen2 Hmap) as [Hbuf Hsame].
  exists (fresh (dom (heap s))),
         (file_region path f (int (sys_fd f w1)) numBytes buf).
  rewrite (Malloc_path_run _ _ _ Hpath), Hdir, Hopen.
  unfold resolve_size.
  replace (numBytes <? 0) with false by (symmetry; apply Z.ltb_ge; lia).
  rewrite Htrunc, (map_for_open _ _ _ _ _ Hon), Hmap.
  repeat split; auto using fresh_unused.
  rewrite Hsame. exact Hlen2.
Qed.

(** X5: nothing is undone when the mapping fails.  With the file opened or
    created and truncated to numBytes, a map call that reports an error
    makes Malloc panic with that error.  No region is added to the heap;
    when the map call was made the file had numBytes bytes and its object
    was open; and Malloc makes no call after it, neither Close nor a
    second Truncate: the world is the one the failed map call left. *)
Theorem Malloc_map_failure `{!FilePlatform P} (numBytes : Z) (path : string)
    (s : state) (f : file) (w1 w2 w3 : world) (e : error) :
  path <> "" -> 0 <= numBytes ->
  dirExists path (env s) = false ->
  open_or_create path (env s) = (inr f, w1) ->
  sys_ftruncate f numBytes w1 = (None, w2) ->
  mmap_Map (Some f) RDWR 0 w2 = (inl e, w3) ->
  Malloc numBytes path s = (Panicked (PanicError e), State (heap s) w3) /\
  file_len w2 path = Some numBytes /\ opened_on w2 f = Some path.
Proof.
  intros Hpath Hpos Hdir Hopen Htrunc Hmap.
  pose proof (open_or_create_opens _ _ _ _ Hopen) as Hon.
  destruct (truncate_ok _ _ _ _ _ Hon Htrunc) as [Hon2 Hlen2].
  rewrite (Malloc_path_run _ _ _ Hpath), Hdir, Hopen.
  unfold resolve_size.
  replace (numBytes <? 0) with false by (symmetry; apply Z.ltb_ge; lia).
  rewrite Htrunc, (map_for_open _ _ _ _ _ Hon), Hmap. auto.
Qed.

End Malloc_more.

(** ** More of Free, TruncateTo and Growmap *)

Section Lifecycle.
Context {P : Platform}.

(** X6: Free writes one field: after the call, returned or panicked, the
    region's MMap is nil and every other field, Mem among them, is what it
    was, so Mem still names the bytes that were unmapped; no other region
    is touched.  Free panics exactly when unmapping reports an error: what
    Close reports is dropped. *)
Theorem Free_effect (mm : ptr) (s : state) (r : MmapMalloc) :
  heap s !! mm = Some r ->
  heap (snd (Free mm s)) !! mm
  = Some (mkMmapMalloc (Path r) (File r) (Fd r) (FileBytesLen r)
                       (BytesAlloc r) nil_slice (Mem r)) /\
  (forall q, q <> mm -> heap (snd (Free mm s)) !! q = heap s !! q) /\
  env (snd (Free mm s)) = snd (mmap_unmap (MMap r) (after_Close r (env s))) /\
  (fails (fst (Free mm s)) <->
   fst (mmap_unmap (MMap r) (after_Close r (env s))) <> None).
Proof.
  intros Hmm. rewrite (Free_run _ _ _ Hmm). simpl.
  split; [apply lookup_insert_eq |].
  split; [intros q Hq; apply lookup_insert_ne; congruence |].
  split; [reflexivity |].
  destruct (fst (mmap_unmap (MMap r) (after_Close r (env s)))); simpl;
    split; intros H; try discriminate; try exact I; try contradiction.
Qed.

(** X7: Growmap never grows anything: on every input it leaves the world
    as it was, so no file is truncated and nothing is mapped, and it never
    returns a region. *)
Theorem Growmap_never_grows (oldmap : ptr) (newSize : Z) (s : state) :
  env (snd (Growmap oldmap newSize s)) = env s /\
  (forall p e, fst (Growmap oldmap newSize s) <> Returned (Some p, e)).
Proof.
  destruct (heap s !! oldmap) as [r|] eqn:Hold.
  - rewrite (Growmap_run _ _ _ _ Hold).
    destruct (is_empty (Path r) || (Fd r <=? 0));
      [split; [reflexivity | discriminate] |].
    destruct ((newSize <=? BytesAlloc r) || (newSize <=? FileBytesLen r));
      split; try reflexivity; discriminate.
  - rewrite (Growmap_nil _ _ _ Hold). split; [reflexivity | discriminate].
Qed.

(** X8: a region with no path, or with a descriptor that is not above 0
    (descriptor 0 counts as none), is refused by the first guard of
    Growmap for every newSize, large or small, with the error that the old
    map must be a mapping of a file; the state is as it was. *)
Theorem Growmap_needs_file (oldmap : ptr) (newSize : Z) (s : state)
    (r : MmapMalloc) :
  heap s !! oldmap = Some r ->
  Path r = "" \/ Fd r <= 0 ->
  Growmap oldmap newSize s
  = (Returned (None, Some (Errorf Growmap_nofile_msg)), s).
Proof.
  intros Hold Hno. rewrite (Growmap_run _ _ _ _ Hold).
  replace (is_empty (Path r) || (Fd r <=? 0)) with true; [reflexivity |].
  symmetry. apply orb_true_iff. destruct Hno as [Hp | Hfd].
  - left. apply is_empty_true, Hp.
  - right. apply Z.leb_le, Hfd.
Qed.

(** The heap and the struct after a [Malloc] with no path that returned. *)
Lemma Malloc_anonymous_returned (numBytes : Z) (s s' : state) (p : ptr) :
  Malloc numBytes "" s = (Returned p, s') ->
  exists buf, heap s' !! p = Some (anonymous_region numBytes buf).
Proof.
  rewrite Malloc_anonymous_run.
  destruct (numBytes <? 0); [discriminate |].
  destruct (mmap_MapRegion None (int numBytes) RDWR ANON 0 (env s))
    as [[err|buf] w']; [discriminate |].
  intros H. inversion H; subst. exists buf. apply lookup_insert_eq.
Qed.

(** X9: a region made by Malloc with no path cannot be grown: Growmap on
    it returns nil and the file error for every newSize and changes
    nothing. *)
Theorem Growmap_after_anonymous_Malloc (numBytes newSize : Z) (s s' : state)
    (p : ptr) :
  Malloc numBytes "" s = (Returned p, s') ->
  Growmap p newSize s'
  = (Returned (None, Some (Errorf Growmap_nofile_msg)), s').
Proof.
  intros Hm. destruct (Malloc_anonymous_returned _ _ _ _ Hm) as [buf Hp].
  rewrite (Growmap_run _ _ _ _ Hp). reflexivity.
Qed.

(** X10: TruncateTo on a region made by Malloc with no path panics with
    the package's message for every newSize, before any call to the
    platform: the state is as it was. *)
Theorem TruncateTo_after_anonymous_Malloc (numBytes newSize : Z)
    (s s' : state) (p : ptr) :
  Malloc numBytes "" s = (Returned p, s') ->
  TruncateTo p newSize s'
  = (Panicked (PanicString TruncateTo_nonfile_msg), s').
Proof.
  intros Hm. destruct (Malloc_anonymous_returned _ _ _ _ Hm) as [buf Hp].
  rewrite (TruncateTo_run _ _ _ _ Hp). reflexivity.
Qed.

(** X11: Free on a region made by Malloc with no path closes nothing: its
    one call unmaps the buffer Malloc returned, and it panics exactly when
    that call reports an error. *)
Theorem Free_after_anonymous_Malloc (numBytes : Z) (s s' : state) (p : ptr) :
  Malloc numBytes "" s = (Returned p, s') ->
  exists r, heap s' !! p = Some r /\
            env (snd (Free p s')) = snd (mmap_unmap (Mem r) (env s')) /\
            (fails (fst (Free p s')) <->
             fst (mmap_unmap (Mem r) (env s')) <> None).
Proof.
  intros Hm. destruct (Malloc_anonymous_returned _ _ _ _ Hm) as [buf Hp].
  eexists. split; [exact Hp |]. rewrite (Free_run _ _ _ Hp).
  unfold after_Close. simpl. split; [reflexivity |].
  destruct (fst (mmap_unmap buf (env s'))); simpl;
    split; intros H; try discriminate; try exact I; try contradiction.
Qed.

(** X12: the size TruncateTo gives the file is the size the next Malloc
    with a negative numBytes maps.  For a region whose file object is open
    on its path, after a TruncateTo(newSize) that returned, the region
    still has the BytesAlloc it had, and Malloc(numBytes < 0, path), its
    open, stat and map calls succeeding, returns a region with
    BytesAlloc = FileBytesLen = newSize and a buffer of newSize bytes. *)
Theorem TruncateTo_then_Malloc `{!FilePlatform P} (mm : ptr)
    (newSize numBytes : Z) (s s1 : state) (r : MmapMalloc) (f g : file)
    (w2 w3 : world) (sz : Z) (buf : slice) :
  heap s !! mm = Some r -> File r = Some f ->
  Path r <> "" -> opened_on (env s) f = Some (Path r) ->
  TruncateTo mm newSize s = (Returned tt, s1) ->
  numBytes < 0 ->
  os_OpenFile_RDWR (Path r) (env s1) = (inr g, w2) ->
  sys_fstat g w2 = inr sz ->
  mmap_Map (Some g) RDWR 0 w2 = (inr buf, w3) ->
  heap s1 !! mm = Some r /\
  exists p r',
    Malloc numBytes (Path r) s1
    = (Returned p, State (<[p := r']> (heap s1)) w3) /\
    p <> mm /\
    BytesAlloc r' = newSize /\ FileBytesLen r' = newSize /\
    len (Mem r') = newSize.
Proof.
  intros Hmm Hfile Hpath Hon Htr Hneg Hopen Hstat Hmap.
  rewrite (TruncateTo_run _ _ _ _ Hmm), Hfile in Htr.
  destruct (sys_ftruncate f newSize (env s)) as [res w1] eqn:Hft.
  simpl in Htr. destruct res; [discriminate |].
  inversion Htr; subst s1; clear Htr. simpl in *.
  destruct (truncate_ok _ _ _ _ _ Hon Hft) as [_ Hlen1].
  destruct (regular_exists _ _ _ Hlen1) as [Hdir Hexists].
  destruct (open_ok _ _ _ _ Hopen) as [Hon2 Hsame].
  assert (Hlen2 : file_len w2 (Path r) = Some newSize)
    by (rewrite Hsame; exact Hlen1).
  pose proof (fstat_ok _ _ _ _ Hon2 Hstat) as Hsz.
  assert (sz = newSize) by congruence. subst sz.
  destruct (map_file_ok _ _ _ _ _ _ Hon2 Hlen2 Hmap) as [Hbuf _].
  split; [exact Hmm |].
  exists (fresh (dom (heap s))),
         (file_region (Path r) g (int (sys_fd g w2)) newSize buf).
  rewrite (Malloc_path_run _ _ _ Hpath). simpl env. rewrite Hdir.
  unfold open_or_create. rewrite Hexists. simpl negb. cbv iota.
  rewrite Hopen. unfold resolve_size.
  apply Z.ltb_lt in Hneg. rewrite Hneg, Hstat.
  rewrite (map_for_open _ _ _ _ _ Hon2), Hmap.
  repeat split; auto. eapply fresh_other, Hmm.
Qed.

End Lifecycle.

(** ** The same on the simulated platform *)

Lemma Malloc_region_invariants_witness :
  exists r, heap sized !! 1%positive = Some r /\
            Path r = "/tmp/new" /\ MMap r = Mem r /\
            (0 <= 100 -> BytesAlloc r = 100) /\
            ("/tmp/new" <> "" -> File r <> None /\ FileBytesLen r = BytesAlloc r).
Proof.
  apply (Malloc_region_invariants (P := Sim.platform) 100 "/tmp/new"
           Sim.start sized 1%positive).
  vm_compute; reflexivity.
Defined.

Lemma Malloc_directory_panics_witness :
  Malloc (P := Sim.platform) (-1) "/tmp" Sim.start
  = (Panicked (PanicString (Malloc_isdir_msg "/tmp")), Sim.start).
Proof.
  apply (Malloc_directory_panics (P := Sim.platform) (-1) "/tmp" Sim.start);
    [discriminate | vm_compute; reflexivity].
Defined.

Lemma Malloc_sized_file_witness :
  exists p r,
    Malloc (P := Sim.platform) 100 "/tmp/new" Sim.start
    = (Returned p, State (<[p := r]> (heap Sim.start)) (env sized)) /\
    heap Sim.start !! p = None /\
    Path r = "/tmp/new" /\ File r = Some 1%positive /\
    FileBytesLen r = 100 /\ BytesAlloc r = 100 /\
    Mem r = Slice 65536 100 /\ len (Mem r) = 100 /\
    Sim.sim_file_len (env sized) "/tmp/new" = Some 100.
Proof.
  apply (@Malloc_sized_file Sim.platform Sim.file_platform 100 "/tmp/new"
           Sim.start 1%positive
           (snd (Sim.sim_Create "/tmp/new" Sim.boot))
           (snd (Sim.sim_ftruncate 1%positive 100
                   (snd (Sim.sim_Create "/tmp/new" Sim.boot))))
           (env sized) (Slice 65536 100));
    [discriminate | lia | vm_compute; reflexivity | vm_compute; reflexivity
    | vm_compute; reflexivity | vm_compute; reflexivity].
Defined.

(** A file of no bytes cannot be mapped: the new file stays behind. *)
Lemma Malloc_map_failure_witness :
  Malloc (P := Sim.platform) 0 "/tmp/new" Sim.start
  = (Panicked (PanicError Sim.EINVAL),
     State (P := Sim.platform) (heap Sim.start) empty_file) /\
  Sim.sim_file_len empty_file "/tmp/new" = Some 0 /\
  Sim.sim_opened_on empty_file 1%positive = Some "/tmp/new".
Proof.
  apply (@Malloc_map_failure Sim.platform Sim.file_platform 0 "/tmp/new"
           Sim.start 1%positive
           (snd (Sim.sim_Create "/tmp/new" Sim.boot))
           empty_file empty_file Sim.EINVAL);
    [discriminate | lia | vm_compute; reflexivity | vm_compute; reflexivity
    | vm_compute; reflexivity | vm_compute; reflexivity].
Defined.

Lemma Free_effect_witness :
  heap freed !! 1%positive
  = Some (mkMmapMalloc "/tmp/data" (Some 1%positive) 3 4096 4096 nil_slice
                       (Slice 65536 4096)) /\
  (forall q, q <> 1%positive -> heap freed !! q = heap mapped !! q) /\
  env freed
  = snd (Sim.sim_unmap (Slice 65536 4096)
           (snd (Sim.sim_close 1%positive (env mapped)))) /\
  (fails (fst (Free (P := Sim.platform) 1%positive mapped)) <->
   fst (Sim.sim_unmap (Slice 65536 4096)
          (snd (Sim.sim_close 1%positive (env mapped)))) <> None).
Proof.
  apply (Free_effect (P := Sim.platform) 1%positive mapped
           (file_region "/tmp/data" 1%positive 3 4096 (Slice 65536 4096))).
  vm_compute; reflexivity.
Defined.

Lemma Growmap_needs_file_witness :
  Growmap (P := Sim.platform) 1%positive 8192 on_stdin
  = (Returned (None, Some (Errorf Growmap_nofile_msg)), on_stdin).
Proof.
  apply (Growmap_needs_file (P := Sim.platform) 1%positive 8192 on_stdin
           (file_region "/tmp/data" 1%positive 0 4096 (Slice 65536 4096)));
    [vm_compute; reflexivity | right; simpl; lia].
Defined.

Lemma Growmap_after_anonymous_Malloc_witness :
  Growmap (P := Sim.platform) 1%positive 20480 scratch
  = (Returned (None, Some (Errorf Growmap_nofile_msg)), scratch).
Proof.
  apply (Growmap_after_anonymous_Malloc (P := Sim.platform) 10240 20480
           Sim.start scratch 1%positive).
  vm_compute; reflexivity.
Defined.

Lemma TruncateTo_after_anonymous_Malloc_witness :
  TruncateTo (P := Sim.platform) 1%positive 4096 scratch
  = (Panicked (PanicString TruncateTo_nonfile_msg), scratch).
Proof.
  apply (TruncateTo_after_anonymous_Malloc (P := Sim.platform) 10240 4096
           Sim.start scratch 1%positive).
  vm_compute; reflexivity.
Defined.

Lemma Free_after_anonymous_Malloc_witness :
  exists r, heap scratch !! 1%positive = Some r /\
            env (snd (Free (P := Sim.platform) 1%positive scratch))
            = snd (Sim.sim_unmap (Mem r) (env scratch)) /\
            (fails (fst (Free (P := Sim.platform) 1%positive scratch)) <->
             fst (Sim.sim_unmap (Mem r) (env scratch)) <> None).
Proof.
  apply (Free_after_anonymous_Malloc (P := Sim.platform) 10240 Sim.start
           scratch 1%positive).
  vm_compute; reflexivity.
Defined.

Lemma TruncateTo_then_Malloc_witness :
  heap cut !! 1%positive
  = Some (file_region "/tmp/data" 1%positive 3 4096 (Slice 65536 4096)) /\
  exists p r',
    Malloc (P := Sim.platform) (-1) "/tmp/data" cut
    = (Returned p,
       State (<[p := r']> (heap cut))
             (snd (Malloc (P := Sim.platform) (-1) "/tmp/data" cut)).(env)) /\
    p <> 1%positive /\
    BytesAlloc r' = 100 /\ FileBytesLen r' = 100 /\ len (Mem r') = 100.
Proof.
  apply (@TruncateTo_then_Malloc Sim.platform Sim.file_platform 1%positive
           100 (-1) mapped cut
           (file_region "/tmp/data" 1%positive 3 4096 (Slice 65536 4096))
           1%positive 2%positive
           (snd (Sim.sim_OpenFile_RDWR "/tmp/data" (env cut)))
           (snd (Malloc (P := Sim.platform) (-1) "/tmp/data" cut)).(env)
           100 (Slice 69632 100));
    [vm_compute; reflexivity | reflexivity | discriminate
    | vm_compute; reflexivity | vm_compute; reflexivity | lia
    | vm_compute; reflexivity | vm_compute; reflexivity
    | vm_compute; reflexivity].
Defined.
